(** * Student CRUD API (app_2/main.py): the operation layer over the
    [students] table, embedded as functions on a finite map.

    The table is keyed by its integer primary key [id]; the other four
    columns are NOT NULL and have the shape of the write model.  Every
    mutating function of the source ends in [db.commit()], so a function
    maps the table before the call to the table after it.

    Python integers are unbounded and are modelled by [Z].  The storage
    engine holds signed 64-bit integers: a table only ever holds ids and
    ages in that range, and handing it an integer outside the range raises
    [OverflowError] before anything is written.  Strings are texts that
    the engine can encode. *)

From stdpp Require Import base option list gmap strings fin_maps sorting.
From Stdlib Require Import ZArith Lia.

Local Open Scope string_scope.
Local Open Scope Z_scope.

(** ** Data model *)

(** [class Student(BaseModel)]: the write shape. *)
Record Student := mkStudent {
  name : string;
  email : string;
  age : Z;
  course : string
}.

(** [class StudentResponse(BaseModel)]: the read shape. *)
Record StudentResponse := mkStudentResponse {
  r_id : Z;
  r_name : string;
  r_email : string;
  r_age : Z;
  r_course : string
}.

(** [class StudentModel(Base)]: an ORM object.  Its [id] is [None] until the
    object has been flushed to the table. *)
Record StudentModel := mkStudentModel {
  m_id : option Z;
  m_name : string;
  m_email : string;
  m_age : Z;
  m_course : string
}.

(** The integers the engine stores: signed 64-bit. *)
Definition INT64_MIN : Z := -9223372036854775808.
Definition INT64_MAX : Z := 9223372036854775807.

Definition int64 (z : Z) : Prop := INT64_MIN ≤ z ≤ INT64_MAX.

#[global] Instance int64_dec z : Decision (int64 z).
Proof. unfold int64. apply _. Defined.

(** A row the table can hold: the key and the [age] column are integers
    of the engine. *)
Definition row_ok (i : Z) (row : Student) : Prop := int64 i ∧ int64 (age row).

#[global] Instance row_ok_dec i row : Decision (row_ok i row).
Proof. unfold row_ok. apply _. Defined.

Definition table_ok (m : gmap Z Student) : Prop := map_Forall row_ok m.

#[global] Instance table_ok_dec m : Decision (table_ok m).
Proof. unfold table_ok. apply _. Defined.

(** The [students] table behind a [Session]: its rows by primary key,
    every one of them a row the engine can hold. *)
Record Session := mkSession {
  rows : gmap Z Student;
  rows_ok : bool_decide (table_ok rows)
}.

#[global] Instance Session_lookup : Lookup Z Student Session := λ i db, rows db !! i.
#[global] Instance Session_empty : Empty Session := mkSession ∅ I.
#[global] Instance Session_dom : Dom Session (gset Z) := λ db, dom (rows db).
#[global] Instance Session_size : Size Session := λ db, size (rows db).

Lemma insert_ok i row (db : Session) :
  row_ok i row → bool_decide (table_ok (<[i := row]> (rows db))).
Proof.
  intros H. apply bool_decide_pack, map_Forall_insert_2; [done|].
  apply (bool_decide_unpack _ (rows_ok db)).
Qed.

Lemma delete_ok i (db : Session) : bool_decide (table_ok (delete i (rows db))).
Proof.
  apply bool_decide_pack, map_Forall_delete, (bool_decide_unpack _ (rows_ok db)).
Qed.

(** The table with the row [row] written under key [i]. *)
Definition session_insert (i : Z) (row : Student) (db : Session)
    (ok : row_ok i row) : Session :=
  mkSession (<[i := row]> (rows db)) (insert_ok i row db ok).

(** The table without the row of key [i]. *)
Definition session_delete (i : Z) (db : Session) : Session :=
  mkSession (delete i (rows db)) (delete_ok i db).

(** A value of a parsed JSON request body; a float is given by its value
    [m * 2 ^ e]. *)
Inductive json :=
| JNull
| JBool (b : bool)
| JInt (z : Z)
| JFloat (m e : Z)
| JStr (s : string).

(** Failures of a request. *)
Inductive error :=
| ValidationError                                   (* request body rejected: 422 *)
| HTTPException (status_code : Z) (detail : string) (* raised by the operation layer *)
| Unexpected.                                       (* any other exception: 500 *)

#[global] Instance Student_eq_dec : EqDecision Student.
Proof. solve_decision. Defined.
#[global] Instance StudentResponse_eq_dec : EqDecision StudentResponse.
Proof. solve_decision. Defined.

(** ** What the libraries decide *)

(** The conversion that pydantic's [int] field applies, in its default
    lax mode, to a string or a float: the integer it stands for, if it
    stands for one. *)
Class LaxInt := lax_int : json → option Z.

(** The row id the engine draws at random once the largest row id is in
    use, as a function of the rows of the table. *)
Class RandomRowid := random_rowid : gmap Z Student → Z.

(** ** A state-and-error monad for code that takes [db: Session] *)

Definition M (A : Type) : Type := Session → (error + A) * Session.

Definition ret {A} (a : A) : M A := λ db, (inr a, db).
Definition raise {A} (e : error) : M A := λ db, (inl e, db).
Definition bind {A B} (c : M A) (k : A → M B) : M B :=
  λ db, match c db with
        | (inr a, db') => k a db'
        | (inl e, db') => (inl e, db')
        end.
Definition lift {A} (r : error + A) : M A := λ db, (r, db).

#[global] Instance M_ret : MRet M := @ret.
#[global] Instance M_bind : MBind M := λ A B k c, bind c k.
#[global] Instance M_fmap : FMap M := λ A B f c, bind c (λ a, ret (f a)).

(** ** The validation layer *)

(** A list comprehension whose element expression may raise. *)
Fixpoint sum_mapM {A B} (f : A → error + B) (l : list A) : error + list B :=
  match l with
  | [] => inr []
  | a :: l =>
      match f a with
      | inl e => inl e
      | inr b => match sum_mapM f l with
                 | inl e => inl e
                 | inr bs => inr (b :: bs)
                 end
      end
  end.

(** A [str] field takes a string and nothing else. *)
Definition as_str (v : option json) : error + string :=
  match v with Some (JStr s) => inr s | _ => inl ValidationError end.

(** An [int] field takes an integer of any size; in lax mode it also
    takes [true] and [false] as 1 and 0, and the strings and floats that
    [lax_int] converts. *)
Definition as_int `{LaxInt} (v : option json) : error + Z :=
  match v with
  | Some (JInt z) => inr z
  | Some (JBool b) => inr (Z.b2z b)
  | Some (JStr s) =>
      match lax_int (JStr s) with Some z => inr z | None => inl ValidationError end
  | Some (JFloat m e) =>
      match lax_int (JFloat m e) with Some z => inr z | None => inl ValidationError end
  | Some JNull | None => inl ValidationError
  end.

(** Validation of a request body against [Student]: the four fields are
    required, [name], [email] and [course] are strings and [age] is an
    integer; other keys of the body are ignored. *)
Definition Student_validate `{LaxInt} (body : gmap string json) : error + Student :=
  match as_str (body !! "name"), as_str (body !! "email"),
        as_int (body !! "age"), as_str (body !! "course") with
  | inr n, inr e, inr a, inr c => inr (mkStudent n e a c)
  | _, _, _, _ => inl ValidationError
  end.

(** [StudentModel] built from the keyword arguments [student.model_dump()]:
    a transient object, no id yet. *)
Definition StudentModel_new (student : Student) : StudentModel :=
  mkStudentModel None (name student) (email student) (age student) (course student).

(** [for key, value in student.model_dump().items(): setattr(db_student, key, value)]:
    the dump has exactly the keys name, email, age and course. *)
Definition setattrs (db_student : StudentModel) (student : Student) : StudentModel :=
  mkStudentModel (m_id db_student)
    (name student) (email student) (age student) (course student).

(** [StudentResponse.model_validate(obj)] with [from_attributes]: copies the
    five attributes; [id: int] rejects [None]. *)
Definition model_validate (obj : StudentModel) : error + StudentResponse :=
  match m_id obj with
  | Some i => inr (mkStudentResponse i (m_name obj) (m_email obj) (m_age obj) (m_course obj))
  | None => inl Unexpected
  end.

(** ** The record store *)

(** The data columns of an object, as written to its row. *)
Definition columns (obj : StudentModel) : Student :=
  mkStudent (m_name obj) (m_email obj) (m_age obj) (m_course obj).

(** The object loaded from the row with primary key [i]. *)
Definition load (i : Z) (row : Student) : StudentModel :=
  mkStudentModel (Some i) (name row) (email row) (age row) (course row).

(** Largest primary key in the table, if any. *)
Definition max_of (keys : list Z) : option Z :=
  foldr (λ k acc, Some (match acc with Some a => Z.max k a | None => k end))
        None keys.

Definition max_rowid (db : Session) : option Z :=
  max_of (map fst (map_to_list (rows db))).

(** The largest row id of the engine. *)
Definition MAX_ROWID : Z := INT64_MAX.

(** The key the engine gives to an inserted row.  The database is SQLite
    ([DATABASE_URL]) and the column is declared
    [Column(Integer, primary_key=True)] with no autoincrement option, so
    the key is one more than the largest key present, and 1 in an empty
    table.  Once the largest key is [MAX_ROWID] the engine draws a random
    key between 1 and [2 ^ 62]; when its draws only hit keys in use it
    reports the table full ([None]). *)
Definition new_rowid `{RandomRowid} (db : Session) : option Z :=
  match max_rowid db with
  | None => Some 1
  | Some k =>
      if decide (k < MAX_ROWID) then Some (k + 1)
      else
        let r := Z.land (random_rowid (rows db)) (Z.shiftr MAX_ROWID 1) + 1 in
        if decide (db !! r = None) then Some r else None
  end.

(** [db.query(StudentModel).filter(StudentModel.id == student_id).first()]:
    an id outside the engine's integers cannot be bound to the query. *)
Definition query_first (student_id : Z) : M (option StudentModel) :=
  λ db,
    if decide (int64 student_id)
    then (inr (load student_id <$> db !! student_id), db)
    else (inl Unexpected, db).

(** The order of a scan of the table: ascending primary key. *)
Definition rowid_le (a b : Z * Student) : Prop := a.1 ≤ b.1.

#[global] Instance rowid_le_dec : RelDecision rowid_le.
Proof. intros a b. unfold rowid_le. apply _. Defined.

(** [db.query(StudentModel).all()]: the query has no ORDER BY; the rows
    come in the order of the scan. *)
Definition query_all : M (list StudentModel) :=
  λ db, (inr (map (λ kv, load (fst kv) (snd kv))
                  (merge_sort rowid_le (map_to_list (rows db)))), db).

(** [db.add(obj); db.commit()]: INSERT; the flush sets the object's id.
    It fails, and writes nothing, when the engine finds no free key, when
    an integer of the row is outside the engine's integers, and when the
    key is in use. *)
Definition add_commit `{RandomRowid} (obj : StudentModel) : M StudentModel :=
  λ db,
    match (match m_id obj with Some i => Some i | None => new_rowid db end) with
    | None => (inl Unexpected, db)
    | Some i =>
        match decide (row_ok i (columns obj)), db !! i with
        | left ok, None =>
            (inr (mkStudentModel (Some i) (m_name obj) (m_email obj) (m_age obj) (m_course obj)),
             session_insert i (columns obj) db ok)
        | _, _ => (inl Unexpected, db)
        end
    end.

(** [db.commit()] with [obj] modified: UPDATE of the row with obj's id.
    It fails, and writes nothing, when an integer of the row is outside
    the engine's integers. *)
Definition update_commit (obj : StudentModel) : M unit :=
  λ db,
    match m_id obj with
    | Some i =>
        match decide (row_ok i (columns obj)), db !! i with
        | left ok, Some _ => (inr tt, session_insert i (columns obj) db ok)
        | _, _ => (inl Unexpected, db)
        end
    | None => (inl Unexpected, db)
    end.

(** [db.delete(obj); db.commit()]: DELETE of the row with obj's id. *)
Definition delete_commit (obj : StudentModel) : M unit :=
  λ db,
    match m_id obj with
    | Some i => (inr tt, session_delete i db)
    | None => (inl Unexpected, db)
    end.

(** [db.refresh(obj)]: reloads the attributes from the row. *)
Definition refresh (obj : StudentModel) : M StudentModel :=
  λ db,
    match m_id obj with
    | Some i =>
        match db !! i with
        | Some row => (inr (load i row), db)
        | None => (inl Unexpected, db)
        end
    | None => (inl Unexpected, db)
    end.

(** ** The operation layer *)

Definition NotFound : error := HTTPException 404 "Student not found".

Definition create_student_func `{RandomRowid} (student : Student) : M StudentResponse :=
  let db_student := StudentModel_new student in
  db_student ← add_commit db_student;
  db_student ← refresh db_student;
  lift (model_validate db_student).

Definition get_all_students_func : M (list StudentResponse) :=
  students ← query_all;
  lift (sum_mapM model_validate students).

Definition get_student_func (student_id : Z) : M StudentResponse :=
  student ← query_first student_id;
  match student with
  | None => raise NotFound
  | Some student => lift (model_validate student)
  end.

Definition update_student_func (student_id : Z) (student : Student) : M StudentResponse :=
  db_student ← query_first student_id;
  match db_student with
  | None => raise NotFound
  | Some db_student =>
      let db_student := setattrs db_student student in
      update_commit db_student;;
      db_student ← refresh db_student;
      lift (model_validate db_student)
  end.

(** The dict returned by [delete_student_func]. *)
Record Deleted := mkDeleted {
  message : string;
  deleted_student : StudentResponse
}.

Definition delete_student_func (student_id : Z) : M Deleted :=
  db_student ← query_first student_id;
  match db_student with
  | None => raise NotFound
  | Some db_student =>
      student_data ← lift (model_validate db_student);
      delete_commit db_student;;
      mret (mkDeleted "Student deleted successfully" student_data)
  end.

(** ** The transport layer *)

(** A request: method, path parameter and parsed body. *)
Inductive request :=
| POST_students (body : gmap string json)
| GET_students
| GET_student (student_id : Z)
| PUT_student (student_id : Z) (body : gmap string json)
| DELETE_student (student_id : Z).

(** What a route function returns. *)
Inductive reply :=
| RStudent (r : StudentResponse)
| RList (l : list StudentResponse)
| RDeleted (d : Deleted).

Definition create_student `{LaxInt} `{RandomRowid}
    (body : gmap string json) : M StudentResponse :=
  student ← lift (Student_validate body);
  create_student_func student.

Definition get_all_students : M (list StudentResponse) :=
  get_all_students_func.

Definition get_student (student_id : Z) : M StudentResponse :=
  get_student_func student_id.

Definition update_student `{LaxInt}
    (student_id : Z) (body : gmap string json) : M StudentResponse :=
  student ← lift (Student_validate body);
  update_student_func student_id student.

Definition delete_student (student_id : Z) : M Deleted :=
  delete_student_func student_id.

Definition handle `{LaxInt} `{RandomRowid} (req : request) : M reply :=
  match req with
  | POST_students body => RStudent <$> create_student body
  | GET_students => RList <$> get_all_students
  | GET_student i => RStudent <$> get_student i
  | PUT_student i body => RStudent <$> update_student i body
  | DELETE_student i => RDeleted <$> delete_student i
  end.

(** The status code of the response to a request. *)
Definition status_code_of (req : request) (r : error + reply) : Z :=
  match r with
  | inr _ => match req with POST_students _ => 201 | _ => 200 end
  | inl ValidationError => 422
  | inl (HTTPException code _) => code
  | inl Unexpected => 500
  end.

(** Requests served one after the other, each on the table the previous
    one left; the replies are returned in order. *)
Fixpoint serve `{LaxInt} `{RandomRowid}
    (reqs : list request) (db : Session) : list (error + reply) * Session :=
  match reqs with
  | [] => ([], db)
  | req :: reqs =>
      let '(r, db') := handle req db in
      let '(rs, db'') := serve reqs db' in
      (r :: rs, db'')
  end.

(** ** Observations on a run *)


(** Number of records created / deleted by a run. *)
Fixpoint created (reqs : list request) (rs : list (error + reply)) : nat :=
  match reqs, rs with
  | POST_students _ :: reqs, inr _ :: rs => S (created reqs rs)
  | _ :: reqs, _ :: rs => created reqs rs
  | _, _ => O
  end.

Fixpoint deleted (reqs : list request) (rs : list (error + reply)) : nat :=
  match reqs, rs with
  | DELETE_student _ :: reqs, inr _ :: rs => S (deleted reqs rs)
  | _ :: reqs, _ :: rs => deleted reqs rs
  | _, _ => O
  end.

(** The body a write request carries. *)
Definition body_of (req : request) : option (gmap string json) :=
  match req with
  | POST_students body | PUT_student _ body => Some body
  | _ => None
  end.

(** The read shape of the row [row] stored under key [i]. *)
Definition read (i : Z) (row : Student) : StudentResponse :=
  mkStudentResponse i (name row) (email row) (age row) (course row).

(** The write shape held by a read shape. *)
Definition fields (r : StudentResponse) : Student :=
  mkStudent (r_name r) (r_email r) (r_age r) (r_course r).

(** The example of the specification. *)
Definition ann : Student := mkStudent "Ann" "a@x.com" 20 "CS".
Definition ann_body : gmap string json :=
  {[ "name" := JStr "Ann"; "email" := JStr "a@x.com";
     "age" := JInt 20; "course" := JStr "CS" ]}.
Definition anonymous_body : gmap string json :=
  {[ "name" := JStr ""; "email" := JStr "a@x.com";
     "age" := JInt 20; "course" := JStr "CS" ]}.

Definition bob : Student := mkStudent "Bob" "b@x.com" 31 "Math".
Definition bob_body : gmap string json :=
  {[ "name" := JStr "Bob"; "email" := JStr "b@x.com";
     "age" := JInt 31; "course" := JStr "Math" ]}.
Definition no_age_body : gmap string json :=
  {[ "name" := JStr "Ann"; "email" := JStr "a@x.com"; "course" := JStr "CS" ]}.

(** A write shape whose age is the first integer above the engine's. *)
Definition eve : Student := mkStudent "Eve" "e@x.com" 9223372036854775808 "CS".
Definition eve_body : gmap string json :=
  {[ "name" := JStr "Eve"; "email" := JStr "e@x.com";
     "age" := JInt 9223372036854775808; "course" := JStr "CS" ]}.

(** A store holding Ann under id 1, and one holding Bob as well. *)
Definition one_student : Session := mkSession {[ 1 := ann ]} I.
Definition two_students : Session := mkSession {[ 1 := ann; 2 := bob ]} I.

(** The value of a string of decimal digits, after the digits [acc]. *)
Fixpoint digits_value (s : string) (acc : Z) : option Z :=
  match s with
  | EmptyString => Some acc
  | String c s =>
      let n := Z.of_N (Ascii.N_of_ascii c) in
      if decide (48 ≤ n ≤ 57) then digits_value s (10 * acc + (n - 48)) else None
  end.

(** The value of a decimal numeral: digits, with an optional minus sign. *)
Definition numeral_value (s : string) : option Z :=
  match s with
  | EmptyString => None
  | String c s' =>
      if decide (Z.of_N (Ascii.N_of_ascii c) = 45)
      then match s' with
           | EmptyString => None
           | _ => Z.opp <$> digits_value s' 0
           end
      else digits_value s 0
  end.

(** The value of the float [m * 2 ^ e] when it is whole. *)
Definition whole_value (m e : Z) : option Z :=
  if decide (0 ≤ e) then Some (m * 2 ^ e)
  else if decide (m mod 2 ^ (- e) = 0) then Some (m / 2 ^ (- e)) else None.

(** A validator for the examples: it converts the decimal numerals and the
    whole floats; and an engine for the examples, whose random draw is
    always 0. *)
Definition decimal_lax_int : LaxInt :=
  λ v, match v with
       | JStr s => numeral_value s
       | JFloat m e => whole_value m e
       | _ => None
       end.
Definition zero_rowid : RandomRowid := λ _, 0.

(** The largest key of the table is not yet the largest row id. *)
Definition below_ceiling (db : Session) : Prop :=
  ∀ k, is_Some (db !! k) → k < MAX_ROWID.


(** After the requests [reqs] served from the empty store, every stored
    record has a non-empty name. *)
Definition names_nonempty `{LaxInt} `{RandomRowid} (reqs : list request) : Prop :=
  ∀ i row, (serve reqs ∅).2 !! i = Some row → name row ≠ "".


(** When no record has id [i], [get(i)] fails with not-found. *)
Definition absent_gives_not_found (i : Z) (db : Session) : Prop :=
  db !! i = None → get_student_func i db = (inl NotFound, db).

(** What serving one request on the store [db] comes to: a failure, which
    leaves the store as it was, or the reply of the request together with
    the store it leaves. *)
Inductive outcome `{LaxInt} `{RandomRowid} (db : Session) :
    request → error + reply → Session → Prop :=
| failed req e :
    outcome db req (inl e) db
| listed l :
    outcome db GET_students (inr (RList l)) db
| got i row :
    db !! i = Some row →
    outcome db (GET_student i) (inr (RStudent (read i row))) db
| inserted body W i db' :
    Student_validate body = inr W →
    new_rowid db = Some i → db !! i = None → int64 i → int64 (age W) →
    rows db' = <[i := W]> (rows db) →
    outcome db (POST_students body) (inr (RStudent (read i W))) db'
| updated i body W old db' :
    Student_validate body = inr W →
    db !! i = Some old → int64 (age W) →
    rows db' = <[i := W]> (rows db) →
    outcome db (PUT_student i body) (inr (RStudent (read i W))) db'
| removed i row db' :
    db !! i = Some row →
    rows db' = delete i (rows db) →
    outcome db (DELETE_student i)
      (inr (RDeleted (mkDeleted "Student deleted successfully" (read i row)))) db'.

(** A request that writes to the record with id [i]. *)
Definition writes_to (i : Z) (req : request) : Prop :=
  match req with
  | PUT_student k _ | DELETE_student k => k = i
  | _ => False
  end.

(** [student.model_dump()]: the dict of the four fields. *)
Definition model_dump (student : Student) : gmap string json :=
  {[ "name" := JStr (name student); "email" := JStr (email student);
     "age" := JInt (age student); "course" := JStr (course student) ]}.

(** The dict of a read shape, as it is serialised in a response. *)
Definition response_dump (r : StudentResponse) : gmap string json :=
  {[ "id" := JInt (r_id r);
     "name" := JStr (r_name r); "email" := JStr (r_email r);
     "age" := JInt (r_age r); "course" := JStr (r_course r) ]}.

(** * Properties *)

(** ** The store *)

Section store.
Context `{RandomRowid}.
Implicit Types (db : Session) (i j k : Z) (row : Student).

Lemma Session_eq db1 db2 : rows db1 = rows db2 → db1 = db2.
Proof.
  destruct db1, db2; simpl. intros ->. f_equal. apply proof_irrel.
Qed.

Lemma lookup_rows db i : db !! i = rows db !! i.
Proof. done. Qed.

Lemma dom_rows db : dom db = dom (rows db).
Proof. done. Qed.

Lemma size_rows db : size db = size (rows db).
Proof. done. Qed.

Lemma stored_row_ok db i row : db !! i = Some row → int64 i ∧ int64 (age row).
Proof.
  intros Hi. by apply (bool_decide_unpack _ (rows_ok db) i row).
Qed.

Lemma lookup_session_insert db i row ok j :
  session_insert i row db ok !! j = if decide (i = j) then Some row else db !! j.
Proof. unfold lookup, Session_lookup. simpl. apply lookup_insert. Qed.

Lemma lookup_session_delete db i j :
  session_delete i db !! j = if decide (i = j) then None else db !! j.
Proof. unfold lookup, Session_lookup. simpl. apply lookup_delete. Qed.

Lemma lookup_session_empty i : (∅ : Session) !! i = None.
Proof. unfold lookup, Session_lookup. simpl. apply lookup_empty. Qed.

Lemma session_insert_id db i row ok : db !! i = Some row → session_insert i row db ok = db.
Proof. intros Hi. apply Session_eq. simpl. by apply insert_id. Qed.

Lemma session_delete_insert db i row ok :
  db !! i = None → session_delete i (session_insert i row db ok) = db.
Proof. intros Hi. apply Session_eq. simpl. by apply delete_insert_id. Qed.

Lemma max_of_ge (keys : list Z) i :
  i ∈ keys → ∃ k, max_of keys = Some k ∧ i ≤ k.
Proof.
  induction keys as [|a keys IH]; intros Hin.
  - by apply elem_of_nil in Hin.
  - apply elem_of_cons in Hin as [->|Hin]; simpl.
    + destruct (max_of keys); eexists; split; eauto; lia.
    + destruct (IH Hin) as (k & -> & Hk). eexists; split; eauto; lia.
Qed.

Lemma max_of_elem (keys : list Z) k : max_of keys = Some k → k ∈ keys.
Proof.
  revert k. induction keys as [|a keys IH]; intros k; simpl; [done|].
  destruct (max_of keys) as [m|] eqn:Hm; intros [= <-].
  - destruct (Z.max_spec a m) as [[_ ->]|[_ ->]].
    + apply list_elem_of_further. by apply IH.
    + apply list_elem_of_here.
  - apply list_elem_of_here.
Qed.

Lemma max_rowid_ge db i row :
  db !! i = Some row → ∃ k, max_rowid db = Some k ∧ i ≤ k.
Proof.
  intros Hi. apply max_of_ge.
  apply list_elem_of_fmap. exists (i, row). split; [done|].
  by apply elem_of_map_to_list.
Qed.

Lemma max_rowid_stored db k : max_rowid db = Some k → is_Some (db !! k).
Proof.
  intros Hk. apply max_of_elem, list_elem_of_fmap in Hk as ([k' row] & -> & Hin).
  apply elem_of_map_to_list in Hin. by exists row.
Qed.

Lemma max_rowid_largest db k :
  is_Some (db !! k) → (∀ j, is_Some (db !! j) → j ≤ k) → max_rowid db = Some k.
Proof.
  intros [row Hk] Hmax.
  destruct (max_rowid_ge _ _ _ Hk) as (m & Hm & Hle).
  pose proof (Hmax m (max_rowid_stored _ _ Hm)).
  rewrite Hm. f_equal. lia.
Qed.

Lemma max_rowid_None db : max_rowid db = None → ∀ i, db !! i = None.
Proof.
  intros Hm i. destruct (db !! i) as [row|] eqn:Hi; [|done].
  destruct (max_rowid_ge _ _ _ Hi) as (k & Hk & _). congruence.
Qed.

Lemma max_rowid_empty : max_rowid ∅ = None.
Proof. unfold max_rowid. simpl. by rewrite map_to_list_empty. Qed.

(** The random draw, masked as the engine does, is between 1 and 2^62. *)
Lemma masked_draw_range (v : Z) :
  1 ≤ Z.land v (Z.shiftr MAX_ROWID 1) + 1 ≤ 4611686018427387904.
Proof.
  assert (Hm : Z.shiftr MAX_ROWID 1 = 4611686018427387903) by reflexivity.
  rewrite Hm.
  assert (0 ≤ Z.land v 4611686018427387903) by (apply Z.land_nonneg; lia).
  assert (Z.land v 4611686018427387903 ≤ 4611686018427387903); [|lia].
  change 4611686018427387903 with (Z.ones 62) at 1.
  rewrite Z.land_ones by lia.
  pose proof (Z.mod_pos_bound v (2 ^ 62)). lia.
Qed.

(** The key of an inserted row is free and is an integer of the engine. *)
Lemma new_rowid_fresh db i : new_rowid db = Some i → db !! i = None ∧ int64 i.
Proof.
  unfold new_rowid.
  destruct (max_rowid db) as [k|] eqn:Hk.
  - case_decide as Hlt.
    + intros [= <-]. split.
      * destruct (db !! (k + 1)) as [row|] eqn:Hi; [|done].
        destruct (max_rowid_ge _ _ _ Hi) as (k' & Hk' & Hle).
        rewrite Hk in Hk'. injection Hk' as <-. lia.
      * destruct (max_rowid_stored _ _ Hk) as [row Hrow].
        apply stored_row_ok in Hrow as [[Hlo _] _].
        unfold int64, MAX_ROWID, INT64_MIN, INT64_MAX in *. lia.
    + case_decide as Hr; [|done]. intros [= <-]. split; [done|].
      pose proof (masked_draw_range (random_rowid (rows db))).
      unfold int64, INT64_MIN, INT64_MAX. lia.
  - intros [= <-]. split; [by apply max_rowid_None|].
    unfold int64, INT64_MIN, INT64_MAX. lia.
Qed.

(** Below the largest row id the key is one more than the largest key. *)
Lemma new_rowid_next db k :
  is_Some (db !! k) → (∀ j, is_Some (db !! j) → j ≤ k) → k < MAX_ROWID →
  new_rowid db = Some (k + 1).
Proof.
  intros Hk Hmax Hlt. unfold new_rowid.
  rewrite (max_rowid_largest _ _ Hk Hmax). by rewrite decide_True.
Qed.


Lemma new_rowid_below db :
  below_ceiling db → ∃ i, new_rowid db = Some i ∧ ∀ j, is_Some (db !! j) → j < i.
Proof.
  intros Hb. unfold new_rowid.
  destruct (max_rowid db) as [k|] eqn:Hk.
  - rewrite decide_True by (apply Hb; by eapply max_rowid_stored).
    eexists. split; [done|]. intros j [row Hj].
    destruct (max_rowid_ge _ _ _ Hj) as (k' & Hk' & Hle).
    rewrite Hk in Hk'. injection Hk' as <-. lia.
  - eexists. split; [done|]. intros j [row Hj].
    by rewrite (max_rowid_None _ Hk) in Hj.
Qed.
End store.

(** ** What each operation computes *)

Ltac run_M :=
  unfold mbind, M_bind, fmap, M_fmap, mret, M_ret, bind, ret, raise, lift; simpl.

Section operations.
Context `{RandomRowid}.
Implicit Types (db : Session) (i j : Z) (row student : Student).

Lemma model_validate_load i row : model_validate (load i row) = inr (read i row).
Proof. done. Qed.

Lemma fields_read i row : fields (read i row) = row.
Proof. by destruct row. Qed.

Lemma read_fields (r : StudentResponse) : read (r_id r) (fields r) = r.
Proof. by destruct r. Qed.

Lemma create_student_func_run student db :
  create_student_func student db =
    match new_rowid db with
    | None => (inl Unexpected, db)
    | Some i =>
        match decide (row_ok i student) with
        | left ok => (inr (read i student), session_insert i student db ok)
        | right _ => (inl Unexpected, db)
        end
    end.
Proof.
  destruct student as [n e a c].
  unfold create_student_func, add_commit, refresh. run_M.
  destruct (new_rowid db) as [i|] eqn:Hi; [|done].
  apply new_rowid_fresh in Hi as [Hi _].
  unfold columns. simpl.
  destruct (decide (row_ok i (mkStudent n e a c))) as [ok|]; [|done].
  rewrite Hi. simpl. rewrite lookup_session_insert, decide_True by done. done.
Qed.

Lemma get_student_func_run i db :
  get_student_func i db =
    (if decide (int64 i)
     then match db !! i with Some row => inr (read i row) | None => inl NotFound end
     else inl Unexpected, db).
Proof.
  unfold get_student_func, query_first. run_M.
  case_decide; [|done]. by destruct (db !! i).
Qed.

Lemma update_student_func_run i student db :
  update_student_func i student db =
    if decide (int64 i)
    then match db !! i with
         | None => (inl NotFound, db)
         | Some _ =>
             match decide (row_ok i student) with
             | left ok => (inr (read i student), session_insert i student db ok)
             | right _ => (inl Unexpected, db)
             end
         end
    else (inl Unexpected, db).
Proof.
  destruct student as [n e a c].
  unfold update_student_func, query_first, update_commit, refresh. run_M.
  case_decide; [|done].
  destruct (db !! i) as [row|] eqn:Hi; simpl; [|done].
  unfold columns. simpl.
  destruct (decide (row_ok i (mkStudent n e a c))) as [ok|]; [|done].
  rewrite Hi. simpl. rewrite lookup_session_insert, decide_True by done. done.
Qed.

Lemma delete_student_func_run i db :
  delete_student_func i db =
    if decide (int64 i)
    then match db !! i with
         | Some row => (inr (mkDeleted "Student deleted successfully" (read i row)),
                        session_delete i db)
         | None => (inl NotFound, db)
         end
    else (inl Unexpected, db).
Proof.
  unfold delete_student_func, query_first, delete_commit. run_M.
  case_decide; [|done]. by destruct (db !! i).
Qed.

Lemma sum_mapM_load (kvs : list (Z * Student)) :
  sum_mapM model_validate (map (λ kv, load kv.1 kv.2) kvs) =
    inr (map (λ kv, read kv.1 kv.2) kvs).
Proof.
  induction kvs as [|[i row] kvs IH]; [done|].
  simpl. by rewrite IH.
Qed.

(** The rows in the order of a scan. *)
Lemma scan_Permutation (m : gmap Z Student) :
  merge_sort rowid_le (map_to_list m) ≡ₚ map_to_list m.
Proof. apply merge_sort_Permutation. Qed.

Lemma get_all_students_func_run db :
  get_all_students_func db =
    (inr (map (λ kv, read kv.1 kv.2) (merge_sort rowid_le (map_to_list (rows db)))), db).
Proof.
  unfold get_all_students_func, query_all. run_M.
  by rewrite sum_mapM_load.
Qed.

(** The listing, up to order. *)
Lemma list_all_Permutation (m : gmap Z Student) :
  map (λ kv, read kv.1 kv.2) (merge_sort rowid_le (map_to_list m))
    ≡ₚ (λ kv : Z * Student, read kv.1 kv.2) <$> map_to_list m.
Proof. apply fmap_Permutation, scan_Permutation. Qed.

(** Successful and failing runs of the writes. *)

Lemma create_student_func_ok student db (r : StudentResponse) db' :
  create_student_func student db = (inr r, db') →
  new_rowid db = Some (r_id r) ∧ db !! r_id r = None ∧ int64 (age student) ∧
  r = read (r_id r) student ∧ rows db' = <[r_id r := student]> (rows db).
Proof.
  rewrite create_student_func_run.
  destruct (new_rowid db) as [i|] eqn:Hi; [|done].
  destruct (decide (row_ok i student)) as [[? ?]|]; [|done].
  intros [= <- <-]. simpl. by apply new_rowid_fresh in Hi as [? ?].
Qed.


Lemma create_student_func_err student db e db' :
  create_student_func student db = (inl e, db') → e = Unexpected ∧ db' = db.
Proof.
  rewrite create_student_func_run. repeat case_match; by intros [= <- <-].
Qed.

Lemma update_student_func_ok i student db (r : StudentResponse) db' :
  update_student_func i student db = (inr r, db') →
  is_Some (db !! i) ∧ int64 (age student) ∧
  r = read i student ∧ rows db' = <[i := student]> (rows db).
Proof.
  rewrite update_student_func_run. case_decide; [|done].
  destruct (db !! i) as [row|] eqn:Hi; [|done].
  destruct (decide (row_ok i student)) as [[? ?]|]; [|done].
  intros [= <- <-]. simpl. eauto.
Qed.


Lemma update_student_func_err i student db e db' :
  update_student_func i student db = (inl e, db') → db' = db.
Proof.
  rewrite update_student_func_run. repeat case_match; by intros [= <- <-].
Qed.

Lemma update_rows i student db :
  rows (update_student_func i student db).2 =
    if decide (int64 (age student)) then alter (λ _, student) i (rows db) else rows db.
Proof.
  rewrite update_student_func_run.
  assert (Hnone : db !! i = None → alter (λ _, student) i (rows db) = rows db).
  { intros Hi. apply map_eq. intros k. rewrite lookup_alter.
    case_decide; [|done]. subst. rewrite lookup_rows in Hi. by rewrite Hi. }
  destruct (decide (int64 i)) as [Hid|Hid].
  - destruct (db !! i) as [row|] eqn:Hi; simpl.
    + destruct (decide (row_ok i student)) as [[? ?]|Hno]; simpl.
      * rewrite decide_True by done. apply map_eq. intros k.
        rewrite lookup_alter, lookup_insert. case_decide; [|done].
        rewrite lookup_rows in Hi. by rewrite Hi.
      * rewrite decide_False; [done|]. intros ?. by apply Hno.
    + case_decide; by rewrite ?Hnone.
  - simpl. case_decide; [|done]. rewrite Hnone; [done|].
    destruct (db !! i) as [row|] eqn:Hi; [|done].
    by apply stored_row_ok in Hi as [? _].
Qed.

Lemma delete_rows i db : rows (delete_student_func i db).2 = delete i (rows db).
Proof.
  rewrite delete_student_func_run.
  assert (Hnone : db !! i = None → delete i (rows db) = rows db).
  { intros Hi. by apply delete_id. }
  case_decide as Hid.
  - destruct (db !! i) as [row|] eqn:Hi; simpl; [done|]. by rewrite Hnone.
  - simpl. rewrite Hnone; [done|].
    destruct (db !! i) as [row|] eqn:Hi; [|done].
    by apply stored_row_ok in Hi as [? _].
Qed.

Lemma delete_student_func_err i db e db' :
  delete_student_func i db = (inl e, db') → db' = db.
Proof.
  rewrite delete_student_func_run. repeat case_match; by intros [= <- <-].
Qed.
End operations.

(** ** Create, read, update and delete *)

Section crud.
Context `{LaxInt} `{RandomRowid}.
Implicit Types (db : Session) (i j : Z) (row W : Student).



(** C4, amended: when [i] is an integer of the engine and no record has
    id [i], each of [get(i)], [update(i, W)] and [delete(i)] fails with the
    HTTP exception 404 "Student not found", which the transport layer
    answers with status 404 on the GET, the DELETE and, for a body that
    validates, the PUT route; and after any [delete(i)], a second
    [delete(i)] fails in that way. *)
Theorem absent_is_not_found i W db :
  int64 i →
  db !! i = None →
  get_student_func i db = (inl (HTTPException 404 "Student not found"), db) ∧
  update_student_func i W db = (inl (HTTPException 404 "Student not found"), db) ∧
  delete_student_func i db = (inl (HTTPException 404 "Student not found"), db) ∧
  status_code_of (GET_student i) (handle (GET_student i) db).1 = 404 ∧
  status_code_of (DELETE_student i) (handle (DELETE_student i) db).1 = 404 ∧
  (∀ body, Student_validate body = inr W →
           handle (PUT_student i body) db =
             (inl (HTTPException 404 "Student not found"), db) ∧
           status_code_of (PUT_student i body) (handle (PUT_student i body) db).1 = 404) ∧
  (∀ db0, delete_student_func i (delete_student_func i db0).2 =
            (inl (HTTPException 404 "Student not found"), (delete_student_func i db0).2)).
Proof.
  intros Hid Hi.
  assert (Hg : get_student_func i db = (inl NotFound, db))
    by (by rewrite get_student_func_run, decide_True, Hi).
  assert (Hu : update_student_func i W db = (inl NotFound, db))
    by (by rewrite update_student_func_run, decide_True, Hi).
  assert (Hd : delete_student_func i db = (inl NotFound, db))
    by (by rewrite delete_student_func_run, decide_True, Hi).
  split; [done|]. split; [done|]. split; [done|]. split; [|split; [|split]].
  - unfold handle, get_student. run_M. by rewrite Hg.
  - unfold handle, delete_student. run_M. by rewrite Hd.
  - intros body Hv. unfold handle, update_student. run_M. by rewrite Hv, Hu.
  - intros db0. rewrite (delete_student_func_run i db0), decide_True by done.
    destruct (db0 !! i) as [row|] eqn:Hi0; simpl;
      rewrite delete_student_func_run, decide_True by done.
    + by rewrite lookup_session_delete, decide_True.
    + by rewrite Hi0.
Qed.

(** C5: when the record [row] is stored under id [i], [delete(i)] returns
    the message "Student deleted successfully" with the read shape of
    [row] (id [i] and its four fields as stored), and leaves a store in
    which [i] has no record and every other id is as before. *)
Theorem delete_returns_last_value i row db :
  db !! i = Some row →
  ∃ db', delete_student_func i db =
           (inr {| message := "Student deleted successfully";
                   deleted_student :=
                     {| r_id := i; r_name := name row; r_email := email row;
                        r_age := age row; r_course := course row |} |}, db') ∧
    db' !! i = None ∧
    (∀ j, j ≠ i → db' !! j = db !! j) ∧
    get_student_func i db' = (inl NotFound, db').
Proof.
  intros Hi. destruct (stored_row_ok _ _ _ Hi) as [Hid _].
  rewrite delete_student_func_run, decide_True, Hi by done.
  eexists. split; [done|].
  split; [by rewrite lookup_session_delete, decide_True|].
  split.
  - intros j Hj. by rewrite lookup_session_delete, decide_False.
  - by rewrite get_student_func_run, decide_True, lookup_session_delete, decide_True.
Qed.

(** C9: [get(i)] and [list_all()] leave the store as it was, and the same
    call run a second time gives the same result. *)
Theorem reads_are_idempotent i db :
  (get_student_func i db).2 = db ∧
  get_student_func i (get_student_func i db).2 = get_student_func i db ∧
  (get_all_students_func db).2 = db ∧
  get_all_students_func (get_all_students_func db).2 = get_all_students_func db.
Proof.
  rewrite get_student_func_run, get_all_students_func_run. simpl.
  by rewrite get_student_func_run, get_all_students_func_run.
Qed.

(** C10: [update(i, W)] and [delete(i)] leave every record with an id
    [j ≠ i] as it was: its row in the store, and what [get(j)] answers. *)
Theorem update_delete_frame i j W db :
  j ≠ i →
  (update_student_func i W db).2 !! j = db !! j ∧
  (delete_student_func i db).2 !! j = db !! j ∧
  (get_student_func j (update_student_func i W db).2).1 = (get_student_func j db).1 ∧
  (get_student_func j (delete_student_func i db).2).1 = (get_student_func j db).1.
Proof.
  intros Hj.
  assert (Hu : (update_student_func i W db).2 !! j = db !! j).
  { rewrite !lookup_rows, update_rows. case_decide; [|done].
    by rewrite lookup_alter_ne. }
  assert (Hd : (delete_student_func i db).2 !! j = db !! j).
  { rewrite !lookup_rows, delete_rows. by rewrite lookup_delete_ne. }
  repeat split; try done.
  - by rewrite !get_student_func_run, Hu.
  - by rewrite !get_student_func_run, Hd.
Qed.
End crud.

(** ** Requests and runs *)

Section runs.
Context `{LaxInt} `{RandomRowid}.
Implicit Types (db : Session) (i j : Z) (row W : Student).
Implicit Types (req : request) (reqs : list request) (body : gmap string json).

Lemma fmap_run {A B} (f : A → B) (c : M A) db :
  (f <$> c) db =
    (match (c db).1 with inl e => inl e | inr a => inr (f a) end, (c db).2).
Proof. unfold fmap, M_fmap, bind, ret. by destruct (c db) as [[e|a] db']. Qed.

Lemma handle_run req db :
  handle req db =
    match req with
    | POST_students body =>
        match Student_validate body with
        | inr W => (RStudent <$> create_student_func W) db
        | inl e => (inl e, db)
        end
    | GET_students => (RList <$> get_all_students_func) db
    | GET_student i => (RStudent <$> get_student_func i) db
    | PUT_student i body =>
        match Student_validate body with
        | inr W => (RStudent <$> update_student_func i W) db
        | inl e => (inl e, db)
        end
    | DELETE_student i => (RDeleted <$> delete_student_func i) db
    end.
Proof.
  destruct req as [body| |i|i body|i]; unfold handle; try done.
  - unfold create_student. unfold fmap, M_fmap, mbind, M_bind, bind, ret, lift.
    by destruct (Student_validate body).
  - unfold update_student. unfold fmap, M_fmap, mbind, M_bind, bind, ret, lift.
    by destruct (Student_validate body).
Qed.

Lemma Student_validate_error body e :
  Student_validate body = inl e → e = ValidationError.
Proof.
  unfold Student_validate, as_str, as_int. intros Hv.
  repeat match type of Hv with
         | context [match ?x with _ => _ end] => destruct x
         end; congruence.
Qed.

Lemma as_str_inr (v : option json) s : as_str v = inr s → v = Some (JStr s).
Proof. destruct v as [[]|]; simpl; congruence. Qed.

Lemma as_int_inr (v : option json) z : as_int v = inr z → is_Some v.
Proof. destruct v as [j|]; [eauto|done]. Qed.

Lemma Student_validate_fields body W :
  Student_validate body = inr W →
  body !! "name" = Some (JStr (name W)) ∧ body !! "email" = Some (JStr (email W)) ∧
  as_int (body !! "age") = inr (age W) ∧ is_Some (body !! "age") ∧
  body !! "course" = Some (JStr (course W)).
Proof.
  unfold Student_validate. intros Hv.
  destruct (as_str (body !! "name")) as [|n] eqn:Hn; [done|].
  destruct (as_str (body !! "email")) as [|e] eqn:He; [done|].
  destruct (as_int (body !! "age")) as [|a] eqn:Ha; [done|].
  destruct (as_str (body !! "course")) as [|c] eqn:Hc; [done|].
  injection Hv as <-. simpl.
  eauto 10 using as_str_inr, as_int_inr.
Qed.

(** Serving a request comes to one of the outcomes. *)
Lemma handle_outcome req db : outcome db req (handle req db).1 (handle req db).2.
Proof.
  rewrite handle_run. destruct req as [body| |i|i body|i].
  - destruct (Student_validate body) as [e|W] eqn:Hv; [constructor|].
    rewrite fmap_run.
    destruct (create_student_func W db) as [[e|r] db'] eqn:Hc; simpl.
    + apply create_student_func_err in Hc as [_ ->]. constructor.
    + pose proof (create_student_func_ok _ _ _ _ Hc) as (Hi & Hfree & Ha & -> & Hrows).
      pose proof (new_rowid_fresh _ _ Hi) as [_ Hid].
      by econstructor.
  - rewrite fmap_run, get_all_students_func_run. simpl. constructor.
  - rewrite fmap_run, get_student_func_run. simpl.
    case_decide; [|constructor].
    destruct (db !! i) eqn:Hi; by constructor.
  - destruct (Student_validate body) as [e|W] eqn:Hv; [constructor|].
    rewrite fmap_run.
    destruct (update_student_func i W db) as [[e|r] db'] eqn:Hu; simpl.
    + apply update_student_func_err in Hu as ->. constructor.
    + pose proof (update_student_func_ok _ _ _ _ _ Hu) as ([old Hi] & Ha & -> & Hrows).
      by econstructor.
  - rewrite fmap_run, delete_student_func_run. simpl.
    case_decide; [|constructor].
    destruct (db !! i) eqn:Hi; simpl; [|constructor].
    by econstructor.
Qed.

Lemma handle_failure req db e db' : handle req db = (inl e, db') → db' = db.
Proof.
  intros Hh. pose proof (handle_outcome req db) as Ho. rewrite Hh in Ho.
  simpl in Ho. by inversion Ho.
Qed.

Lemma serve_cons req reqs db :
  serve (req :: reqs) db =
    ((handle req db).1 :: (serve reqs (handle req db).2).1,
     (serve reqs (handle req db).2).2).
Proof.
  simpl. destruct (handle req db) as [r db1]. simpl.
  by destruct (serve reqs db1).
Qed.

(** One request changes the number of rows by what it created or deleted. *)
Lemma handle_size req db :
  (size (handle req db).2 + deleted [req] [(handle req db).1] =
   size db + created [req] [(handle req db).1])%nat.
Proof.
  rewrite !size_rows.
  destruct (handle_outcome req db) as
    [req e|l|i row Hi|body W i db' Hv Hn Hi Hid Ha Hrows
    |i body W old db' Hv Hi Ha Hrows|i row db' Hi Hrows].
  - destruct req; simpl; lia.
  - simpl. lia.
  - simpl. lia.
  - simpl. rewrite Hrows, map_size_insert_None by done. lia.
  - simpl. rewrite Hrows, map_size_insert_Some by eauto. lia.
  - simpl. rewrite Hrows, map_size_delete_Some by eauto.
    assert (size (rows db) ≠ 0%nat); [|lia].
    intros Hs. apply map_size_empty_inv in Hs.
    rewrite lookup_rows, Hs in Hi. by rewrite lookup_empty in Hi.
Qed.

Lemma created_cons req reqs r rs :
  created (req :: reqs) (r :: rs) = (created [req] [r] + created reqs rs)%nat.
Proof. destruct req, r; simpl; lia. Qed.

Lemma deleted_cons req reqs r rs :
  deleted (req :: reqs) (r :: rs) = (deleted [req] [r] + deleted reqs rs)%nat.
Proof. destruct req, r; simpl; lia. Qed.

Lemma serve_size reqs db :
  (size (serve reqs db).2 + deleted reqs (serve reqs db).1 =
   size db + created reqs (serve reqs db).1)%nat.
Proof.
  revert db. induction reqs as [|req reqs IH]; intros db.
  - simpl. lia.
  - rewrite serve_cons. cbn [fst snd].
    rewrite created_cons, deleted_cons.
    pose proof (handle_size req db). pose proof (IH (handle req db).2). lia.
Qed.

Lemma elem_of_list_all db (r : StudentResponse) :
  r ∈ map (λ kv, read kv.1 kv.2) (merge_sort rowid_le (map_to_list (rows db)))
  ↔ db !! r_id r = Some (fields r).
Proof.
  rewrite list_all_Permutation, list_elem_of_fmap. split.
  - intros ([i row] & -> & Hin). apply elem_of_map_to_list in Hin.
    simpl. by rewrite fields_read.
  - intros Hr. exists (r_id r, fields r). split.
    + by destruct r.
    + by apply elem_of_map_to_list.
Qed.
End runs.

(** ** Identifiers *)

Section identifiers.
Context `{LaxInt} `{RandomRowid}.
Implicit Types (db : Session) (i j k : Z) (row W : Student).

End identifiers.

(** ** Listing *)

Section listing_all.
Context `{LaxInt} `{RandomRowid}.

Lemma read_pair_inj : Inj (=) (=) (λ kv : Z * Student, read kv.1 kv.2).
Proof.
  intros [i [n e a c]] [j [n' e' a' c']] Heq. simpl in Heq.
  by injection Heq as -> -> -> -> ->.
Qed.

Lemma NoDup_list_all (db : Session) :
  NoDup (map (λ kv, read kv.1 kv.2) (merge_sort rowid_le (map_to_list (rows db)))).
Proof.
  rewrite list_all_Permutation.
  apply (NoDup_fmap_2 _ (Inj0 := read_pair_inj)), NoDup_map_to_list.
Qed.

Lemma length_list_all (db : Session) :
  length (map (λ kv, read kv.1 kv.2) (merge_sort rowid_le (map_to_list (rows db))))
  = size db.
Proof.
  rewrite list_all_Permutation, length_fmap. apply length_map_to_list.
Qed.

(** C6: [list_all()] returns exactly the stored records, each once; it
    returns the empty sequence on the empty store; and after any requests
    served from the empty store its length is the number of records
    created minus the number deleted. *)
Theorem list_all_is_the_store (reqs : list request) (db : Session) :
  (∃ l, get_all_students_func db = (inr l, db) ∧
        (∀ r, r ∈ l ↔ db !! r_id r = Some (fields r)) ∧
        NoDup l ∧ length l = size db) ∧
  get_all_students_func ∅ = (inr [], ∅) ∧
  (∃ l, get_all_students_func (serve reqs ∅).2 = (inr l, (serve reqs ∅).2) ∧
        length l = (created reqs (serve reqs ∅).1 - deleted reqs (serve reqs ∅).1)%nat ∧
        (deleted reqs (serve reqs ∅).1 ≤ created reqs (serve reqs ∅).1)%nat).
Proof.
  split; [|split].
  - rewrite get_all_students_func_run. eexists. split; [done|].
    split; [apply elem_of_list_all|]. split.
    + apply NoDup_list_all.
    + apply length_list_all.
  - rewrite get_all_students_func_run. simpl. by rewrite map_to_list_empty.
  - rewrite get_all_students_func_run. eexists. split; [done|].
    rewrite length_list_all.
    pose proof (serve_size reqs ∅) as Hs.
    change (size (∅ : Session)) with (size (∅ : gmap Z Student)) in Hs.
    rewrite map_size_empty in Hs. lia.
Qed.
End listing_all.

(** ** Stored records *)

Section stored.
Context `{LaxInt} `{RandomRowid}.
Implicit Types (db : Session) (i j k : Z) (row W : Student).

Lemma handle_row (req : request) db i row :
  (handle req db).2 !! i = Some row →
  db !! i = Some row ∨
  ∃ body, body_of req = Some body ∧ Student_validate body = inr row.
Proof.
  destruct (handle_outcome req db) as
    [req e|l|k row' Hk|body W k db' Hv Hn Hk Hid Ha Hrows
    |k body W old db' Hv Hk Ha Hrows|k row' db' Hk Hrows]; auto.
  - rewrite lookup_rows, Hrows, lookup_insert. case_decide; [|auto].
    intros [= ->]. right. eauto.
  - rewrite lookup_rows, Hrows, lookup_insert. case_decide; [|auto].
    intros [= ->]. right. eauto.
  - rewrite lookup_rows, Hrows, lookup_delete. case_decide; [done|auto].
Qed.

Lemma serve_row (reqs : list request) db i row :
  (serve reqs db).2 !! i = Some row →
  db !! i = Some row ∨
  ∃ req body, req ∈ reqs ∧ body_of req = Some body ∧ Student_validate body = inr row.
Proof.
  revert db. induction reqs as [|req reqs IH]; intros db; [by left|].
  rewrite serve_cons. cbn [snd]. intros Hs.
  destruct (IH _ Hs) as [H1|(req' & body & Hin & Hb & Hv)].
  - destruct (handle_row _ _ _ _ H1) as [?|(body & Hb & Hv)]; [by left|].
    right. exists req, body. split; [apply list_elem_of_here|done].
  - right. exists req', body. split; [by apply list_elem_of_further|done].
Qed.

(** C7, amended: after any requests served from the empty store, every
    stored record is the validated content of the body of one of the
    create or update requests, a body in which all four fields are
    present: name, email and course are the strings of the body and the
    age is the integer that validation makes of the body's age; the name
    may be the empty string. *)
Theorem stored_records_are_populated (reqs : list request) (i : Z) (row : Student) :
  (serve reqs ∅).2 !! i = Some row →
  ∃ req body, req ∈ reqs ∧ body_of req = Some body ∧
    Student_validate body = inr row ∧
    body !! "name" = Some (JStr (name row)) ∧
    body !! "email" = Some (JStr (email row)) ∧
    is_Some (body !! "age") ∧
    as_int (body !! "age") = inr (age row) ∧
    body !! "course" = Some (JStr (course row)).
Proof.
  intros Hs. destruct (serve_row _ _ _ _ Hs) as [He|(req & body & Hin & Hb & Hv)].
  - by rewrite lookup_session_empty in He.
  - exists req, body.
    destruct (Student_validate_fields _ _ Hv) as (? & ? & ? & ? & ?).
    repeat split; done.
Qed.
End stored.

(** ** Failures *)

Section failures.
Context `{LaxInt} `{RandomRowid}.
Implicit Types (db : Session) (i j k : Z) (row W : Student).

(** C8: a request that fails leaves the store as it was, whatever the
    failure; a create or update whose body the validation layer rejects
    fails with the validation error, on every store and for every id, the
    store untouched; and a failing get, update or delete leaves the store
    as it was. *)
Theorem failure_leaves_store (req : request) (db : Session) :
  (∀ e db', handle req db = (inl e, db') → db' = db) ∧
  (∀ body e, body_of req = Some body → Student_validate body = inl e →
             handle req db = (inl ValidationError, db)) ∧
  (∀ i e db', get_student_func i db = (inl e, db') → db' = db) ∧
  (∀ i W e db', update_student_func i W db = (inl e, db') → db' = db) ∧
  (∀ i e db', delete_student_func i db = (inl e, db') → db' = db) ∧
  (∀ W e db', create_student_func W db = (inl e, db') → db' = db).
Proof.
  split; [|split; [|split; [|split; [|split]]]].
  - intros e db'. apply handle_failure.
  - intros body e Hb Hv. rewrite handle_run.
    destruct req; simplify_eq/=; rewrite Hv;
      by rewrite (Student_validate_error _ _ Hv).
  - intros i e db'. rewrite get_student_func_run. congruence.
  - intros i W e db'. apply update_student_func_err.
  - intros i e db'. apply delete_student_func_err.
  - intros W e db' Hc. by apply create_student_func_err in Hc as [_ ->].
Qed.
End failures.

(** * Further properties of the operations *)

(** ** The store an operation leaves *)

Section stores.
Context `{LaxInt} `{RandomRowid}.
Implicit Types (db : Session) (i j k : Z) (row W : Student).


Lemma update_reply i W db :
  (update_student_func i W db).1 =
    if decide (int64 i)
    then match db !! i with
         | None => inl NotFound
         | Some _ => if decide (int64 (age W)) then inr (read i W) else inl Unexpected
         end
    else inl Unexpected.
Proof.
  rewrite update_student_func_run. case_decide as Hid; [|done].
  destruct (db !! i); [|done].
  destruct (decide (row_ok i W)) as [[? Ha]|Hno]; simpl.
  - by rewrite decide_True.
  - rewrite decide_False; [done|]. intros Ha. by apply Hno.
Qed.

Lemma delete_reply i db :
  (delete_student_func i db).1 =
    if decide (int64 i)
    then match db !! i with
         | Some row => inr (mkDeleted "Student deleted successfully" (read i row))
         | None => inl NotFound
         end
    else inl Unexpected.
Proof.
  rewrite delete_student_func_run. case_decide; [|done]. by destruct (db !! i).
Qed.

(** X1: when create returns a record, that record is what get of its id
    then reads; deleting that id returns the same record and leaves the
    store exactly as it was before the create; and while the largest id
    in use is below the largest row id, the next create is given the same
    id again. *)
Theorem create_then_delete_restores W W' db (r : StudentResponse) db1 :
  create_student_func W db = (inr r, db1) →
  get_student_func (r_id r) db1 = (inr r, db1) ∧
  delete_student_func (r_id r) db1 =
    (inr (mkDeleted "Student deleted successfully" r), db) ∧
  (below_ceiling db →
   ∀ r' db2, create_student_func W' db = (inr r', db2) → r_id r' = r_id r).
Proof.
  intros Hc.
  pose proof (create_student_func_ok _ _ _ _ Hc) as (Hi & Hfree & Ha & Hr & Hrows).
  pose proof (new_rowid_fresh _ _ Hi) as [_ Hid].
  assert (Hl : db1 !! r_id r = Some W)
    by (by rewrite lookup_rows, Hrows, lookup_insert_eq).
  split; [|split].
  - rewrite get_student_func_run, decide_True, Hl by done. by rewrite <- Hr.
  - rewrite delete_student_func_run, decide_True, Hl by done. rewrite <- Hr.
    f_equal. apply Session_eq. simpl. rewrite Hrows. by apply delete_insert_id.
  - intros _ r' db2 Hc'.
    pose proof (create_student_func_ok _ _ _ _ Hc') as (Hi' & _).
    congruence.
Qed.

(** X2: when create returns a record, it has added exactly that one
    record: every record stored before is stored unchanged afterwards,
    the set of ids grows by the new id, which was not in it, and the
    number of records grows by one. *)
Theorem create_adds_one W db (r : StudentResponse) db' :
  create_student_func W db = (inr r, db') →
  (∀ j row, db !! j = Some row → db' !! j = Some row) ∧
  (r_id r ∉ dom db) ∧
  dom db' = {[r_id r]} ∪ dom db ∧
  size db' = S (size db).
Proof.
  intros Hc.
  pose proof (create_student_func_ok _ _ _ _ Hc) as (_ & Hfree & _ & _ & Hrows).
  rewrite !dom_rows, !size_rows, Hrows.
  split; [|split; [|split]].
  - intros j row Hj. rewrite lookup_rows, Hrows, lookup_insert_ne; [done|].
    congruence.
  - by apply not_elem_of_dom.
  - apply dom_insert_L.
  - by apply map_size_insert_None.
Qed.

(** X3: when two creates in a row both return a record, both records
    are stored afterwards, also when the two write shapes are equal (there
    is no duplicate detection); and while the largest id in use is below
    the largest row id, the second id is the first plus one. *)
Theorem creates_are_consecutive W1 W2 db (r1 r2 : StudentResponse) db1 db2 :
  create_student_func W1 db = (inr r1, db1) →
  create_student_func W2 db1 = (inr r2, db2) →
  r_id r2 ≠ r_id r1 ∧
  db2 !! r_id r1 = Some W1 ∧ db2 !! r_id r2 = Some W2 ∧
  (below_ceiling db1 → r_id r2 = r_id r1 + 1).
Proof.
  intros Hc1 Hc2.
  pose proof (create_student_func_ok _ _ _ _ Hc1) as (Hi1 & Hf1 & _ & _ & Hr1).
  pose proof (create_student_func_ok _ _ _ _ Hc2) as (Hi2 & Hf2 & _ & _ & Hr2).
  assert (Hl1 : db1 !! r_id r1 = Some W1)
    by (by rewrite lookup_rows, Hr1, lookup_insert_eq).
  assert (Hne : r_id r2 ≠ r_id r1) by congruence.
  split; [done|]. split; [|split].
  - by rewrite lookup_rows, Hr2, lookup_insert_ne.
  - by rewrite lookup_rows, Hr2, lookup_insert_eq.
  - intros Hb.
    assert (Hdb : below_ceiling db).
    { intros k [row Hk]. apply Hb. exists row.
      rewrite lookup_rows, Hr1, lookup_insert_ne; [done|]. congruence. }
    destruct (new_rowid_below db Hdb) as (i & Hi & Hlt).
    assert (i = r_id r1) as -> by congruence.
    assert (Hnext : new_rowid db1 = Some (r_id r1 + 1)).
    { apply new_rowid_next; [by eexists| |apply Hb; by eexists].
      intros j [row Hj]. rewrite lookup_rows, Hr1, lookup_insert in Hj.
      case_decide; [lia|]. assert (j < r_id r1); [|lia]. apply Hlt. by eexists. }
    congruence.
Qed.
End stores.

(** ** Updates and deletes *)

Section writes.
Context `{LaxInt} `{RandomRowid}.
Implicit Types (db : Session) (i j k : Z) (row W : Student).


(** X5: an update with the values the record already has succeeds and
    leaves the store as it was. *)
Theorem update_same_values i W db :
  db !! i = Some W →
  update_student_func i W db =
    (inr (mkStudentResponse i (name W) (email W) (age W) (course W)), db).
Proof.
  intros Hi. destruct (stored_row_ok _ _ _ Hi) as [Hid Ha].
  rewrite update_student_func_run, decide_True, Hi by done.
  destruct (decide (row_ok i W)) as [ok|Hno]; [|by destruct Hno].
  by rewrite session_insert_id.
Qed.

(** X6: the set of stored ids changes only by a successful create, which
    adds the id it returns, and by a successful delete, which removes its
    id; an update never adds a record for an id that is absent, and reads
    and failing requests change nothing. *)
Theorem handle_dom (req : request) db :
  dom (handle req db).2 =
    match req, (handle req db).1 with
    | POST_students _, inr (RStudent r) => {[r_id r]} ∪ dom db
    | DELETE_student i, inr _ => dom db ∖ {[i]}
    | _, _ => dom db
    end.
Proof.
  rewrite !dom_rows.
  destruct req as [body| |k|k body|k];
    match goal with
    | |- context [handle ?r db] =>
        pose proof (handle_outcome r db) as Ho;
        destruct (handle r db) as [res db1]
    end;
    simpl in *;
    inversion Ho as
      [req' e|l|k' row Hk|body' W k' db' Hv Hn Hk Hid Ha Hrows
      |k' body' W old db' Hv Hk Ha Hrows|k' row db' Hk Hrows]; subst; simpl;
      try done.
  - rewrite Hrows. apply dom_insert_L.
  - rewrite Hrows. apply dom_insert_lookup_L. rewrite <- lookup_rows. eauto.
  - rewrite Hrows. apply dom_delete_L.
Qed.

(** X7: writes to two different ids can be done in either order: two
    updates, an update and a delete, and two deletes leave the same store
    whichever comes first, and an update or delete of one id replies the
    same whether or not the other id was written before it. *)
Theorem writes_commute i j W1 W2 db :
  i ≠ j →
  (update_student_func j W2 (update_student_func i W1 db).2).2 =
    (update_student_func i W1 (update_student_func j W2 db).2).2 ∧
  (delete_student_func j (update_student_func i W1 db).2).2 =
    (update_student_func i W1 (delete_student_func j db).2).2 ∧
  (delete_student_func j (delete_student_func i db).2).2 =
    (delete_student_func i (delete_student_func j db).2).2 ∧
  (update_student_func i W1 (update_student_func j W2 db).2).1 =
    (update_student_func i W1 db).1 ∧
  (update_student_func i W1 (delete_student_func j db).2).1 =
    (update_student_func i W1 db).1 ∧
  (delete_student_func i (update_student_func j W2 db).2).1 =
    (delete_student_func i db).1 ∧
  (delete_student_func i (delete_student_func j db).2).1 =
    (delete_student_func i db).1.
Proof.
  intros Hij.
  assert (Hu : ∀ k W, k ≠ i → (update_student_func k W db).2 !! i = db !! i).
  { intros k W Hk. rewrite !lookup_rows, update_rows. case_decide; [|done].
    by rewrite lookup_alter_ne. }
  assert (Hd : ∀ k, k ≠ i → (delete_student_func k db).2 !! i = db !! i).
  { intros k Hk. rewrite !lookup_rows, delete_rows. by rewrite lookup_delete_ne. }
  split; [|split; [|split; [|split; [|split; [|split]]]]].
  - apply Session_eq. rewrite !update_rows. repeat case_decide; try done.
    by apply alter_alter_ne.
  - apply Session_eq. rewrite update_rows, !delete_rows, update_rows.
    case_decide; [|done]. by rewrite delete_alter_ne.
  - apply Session_eq. rewrite !delete_rows.
    apply map_eq. intros k. rewrite !lookup_delete. repeat case_decide; done.
  - rewrite !update_reply. case_decide; [|done]. by rewrite Hu.
  - rewrite !update_reply. case_decide; [|done]. by rewrite Hd.
  - rewrite !delete_reply. case_decide; [|done]. by rewrite Hu.
  - rewrite !delete_reply. case_decide; [|done]. by rewrite Hd.
Qed.

End writes.

(** ** Runs from the empty store *)

Section ids.
Context `{LaxInt} `{RandomRowid}.
Implicit Types (db : Session) (i j k : Z) (row W : Student).
Implicit Types (req : request) (reqs : list request).

Lemma handle_ids_bounded req db (n : nat) :
  (∀ i, is_Some (db !! i) → 1 ≤ i ≤ Z.of_nat n) →
  ∀ i, is_Some ((handle req db).2 !! i) →
       1 ≤ i ≤ Z.of_nat (n + created [req] [(handle req db).1]).
Proof.
  intros Hdb i.
  destruct (handle_outcome req db) as
    [req e|l|k row Hk|body W k db' Hv Hn Hk Hid Ha Hrows
    |k body W old db' Hv Hk Ha Hrows|k row db' Hk Hrows].
  - intros Hi. apply Hdb in Hi. destruct req; simpl; lia.
  - intros Hi. apply Hdb in Hi. simpl. lia.
  - intros Hi. apply Hdb in Hi. simpl. lia.
  - rewrite lookup_rows, Hrows, lookup_insert. simpl. case_decide as Hki.
    + intros _. subst i. revert Hn. unfold new_rowid.
      destruct (max_rowid db) as [m|] eqn:Hm.
      * apply max_rowid_stored, Hdb in Hm. case_decide as Hlt.
        { intros [= <-]. lia. }
        case_decide; [|done]. intros [= <-].
        pose proof (masked_draw_range (random_rowid (rows db))).
        unfold MAX_ROWID, INT64_MAX in Hlt. lia.
      * intros [= <-]. lia.
    + rewrite <- lookup_rows. intros Hi. apply Hdb in Hi. lia.
  - rewrite lookup_rows, Hrows, lookup_insert. simpl. case_decide as Hki.
    + intros _. subst i. assert (is_Some (db !! k)) as Hi by eauto.
      apply Hdb in Hi. lia.
    + rewrite <- lookup_rows. intros Hi. apply Hdb in Hi. lia.
  - rewrite lookup_rows, Hrows, lookup_delete. simpl. case_decide; [by intros []|].
    rewrite <- lookup_rows. intros Hi. apply Hdb in Hi. lia.
Qed.

Lemma serve_ids_bounded reqs db (n : nat) :
  (∀ i, is_Some (db !! i) → 1 ≤ i ≤ Z.of_nat n) →
  ∀ i, is_Some ((serve reqs db).2 !! i) →
       1 ≤ i ≤ Z.of_nat (n + created reqs (serve reqs db).1).
Proof.
  revert db n. induction reqs as [|req reqs IH]; intros db n Hdb i.
  - simpl. intros Hi. apply Hdb in Hi. lia.
  - rewrite serve_cons. cbn [fst snd]. rewrite created_cons. intros Hi.
    pose proof (IH _ _ (handle_ids_bounded req db n Hdb) i Hi). lia.
Qed.

(** X9: after any requests served from the empty store, every stored id
    is at least 1 and at most the number of records created so far. *)
Theorem ids_between_one_and_created reqs i :
  is_Some ((serve reqs ∅).2 !! i) →
  1 ≤ i ≤ Z.of_nat (created reqs (serve reqs ∅).1).
Proof.
  intros Hi. apply (serve_ids_bounded reqs ∅ 0); [|done].
  intros j [row Hj]. by rewrite lookup_session_empty in Hj.
Qed.
End ids.

(** ** Listing and reading *)

Section listing.
Context `{LaxInt} `{RandomRowid}.
Implicit Types (db : Session) (i j k : Z) (row W : Student).

Lemma get_student_func_ok i db r :
  get_student_func i db = (inr r, db) ↔ db !! r_id r = Some (fields r) ∧ r_id r = i.
Proof.
  rewrite get_student_func_run. split.
  - case_decide; [|done].
    destruct (db !! i) as [row|] eqn:Hi; [|done].
    intros [= <-]. simpl. by rewrite fields_read.
  - intros [Hr <-]. destruct (stored_row_ok _ _ _ Hr) as [Hid _].
    by rewrite decide_True, Hr, read_fields.
Qed.

Lemma list_all_ids db :
  map r_id (map (λ kv, read kv.1 kv.2) (merge_sort rowid_le (map_to_list (rows db))))
  = (merge_sort rowid_le (map_to_list (rows db))).*1.
Proof. rewrite map_map. by apply map_ext. Qed.

(** X10: the listing is keyed by id: [get(i)] succeeds with a record
    exactly when the listing holds that record with id [i], and no two
    listed records have the same id. *)
Theorem list_all_agrees_with_get db :
  ∃ l, get_all_students_func db = (inr l, db) ∧
    (∀ i r, get_student_func i db = (inr r, db) ↔ r ∈ l ∧ r_id r = i) ∧
    NoDup (map r_id l).
Proof.
  rewrite get_all_students_func_run. eexists. split; [done|]. split.
  - intros i r. by rewrite get_student_func_ok, elem_of_list_all.
  - rewrite list_all_ids, scan_Permutation. apply NoDup_fst_map_to_list.
Qed.

(** X11: when create returns a record, the listing after it holds that
    record and the records listed before, and nothing else (up to
    order). *)
Theorem list_all_after_create W db (r : StudentResponse) db' :
  create_student_func W db = (inr r, db') →
  ∃ l l',
    get_all_students_func db = (inr l, db) ∧
    get_all_students_func db' = (inr l', db') ∧
    l' ≡ₚ r :: l.
Proof.
  intros Hc.
  pose proof (create_student_func_ok _ _ _ _ Hc) as (_ & Hfree & _ & Hr & Hrows).
  do 2 eexists. rewrite !get_all_students_func_run.
  split; [done|]. split; [done|].
  rewrite !list_all_Permutation, Hrows, Hr.
  change (read (r_id r) W :: ((λ kv : Z * Student, read kv.1 kv.2) <$> map_to_list (rows db)))
    with ((λ kv : Z * Student, read kv.1 kv.2) <$> ((r_id r, W) :: map_to_list (rows db))).
  by apply fmap_Permutation, map_to_list_insert.
Qed.

(** X12: when a record with id [i] is stored, the listing before
    [delete(i)] holds the record that delete returns and the records
    listed after it, and nothing else (up to order). *)
Theorem list_all_before_delete i db :
  is_Some (db !! i) →
  ∃ d db' l l',
    delete_student_func i db = (inr d, db') ∧
    get_all_students_func db = (inr l, db) ∧
    get_all_students_func db' = (inr l', db') ∧
    l ≡ₚ deleted_student d :: l'.
Proof.
  intros [row Hi]. destruct (stored_row_ok _ _ _ Hi) as [Hid _].
  rewrite delete_student_func_run, decide_True, Hi by done. do 4 eexists.
  rewrite !get_all_students_func_run.
  split; [done|]. split; [done|]. split; [done|]. simpl.
  rewrite !list_all_Permutation. simpl.
  change (read i row :: ((λ kv : Z * Student, read kv.1 kv.2) <$> map_to_list (delete i (rows db))))
    with ((λ kv : Z * Student, read kv.1 kv.2) <$> ((i, row) :: map_to_list (delete i (rows db)))).
  apply fmap_Permutation. symmetry. by apply map_to_list_delete.
Qed.

End listing.

(** ** Bodies and status codes *)

Section transport.
Context `{LaxInt} `{RandomRowid}.
Implicit Types (db : Session) (i j k : Z) (row W : Student).
Implicit Types (req : request) (body : gmap string json).

Ltac lookup_dump :=
  repeat (rewrite lookup_insert_eq || rewrite lookup_singleton_eq ||
          (rewrite lookup_insert_ne by done)).

Lemma Student_validate_model_dump W : Student_validate (model_dump W) = inr W.
Proof.
  unfold Student_validate, model_dump. lookup_dump. simpl. by destruct W.
Qed.

Lemma Student_validate_response_dump (r : StudentResponse) :
  Student_validate (response_dump r) = inr (fields r).
Proof. unfold Student_validate, response_dump. by lookup_dump. Qed.

(** X13: validation undoes the dump: the dict of a write shape validates
    to that write shape, and the dict of a read shape validates to its
    four data fields, the id being ignored. *)
Theorem validate_dump_round_trip W (r : StudentResponse) :
  Student_validate (model_dump W) = inr W ∧
  Student_validate (response_dump r) =
    inr (mkStudent (r_name r) (r_email r) (r_age r) (r_course r)).
Proof.
  split; [apply Student_validate_model_dump|apply Student_validate_response_dump].
Qed.

(** X14: sending back with PUT the record that GET of the same id
    returned succeeds, returns that record and leaves the store as it
    was. *)
Theorem put_what_get_returned i (r : StudentResponse) db :
  handle (GET_student i) db = (inr (RStudent r), db) →
  handle (PUT_student i (response_dump r)) db = (inr (RStudent r), db).
Proof.
  rewrite !handle_run, Student_validate_response_dump, !fmap_run.
  rewrite get_student_func_run. simpl.
  case_decide as Hid; [|done].
  destruct (db !! i) as [row|] eqn:Hi; [|done].
  intros [= <-]. rewrite fields_read.
  destruct (stored_row_ok _ _ _ Hi) as [_ Ha].
  rewrite update_student_func_run, decide_True, Hi by done.
  destruct (decide (row_ok i row)) as [ok|Hno]; [|by destruct Hno].
  simpl. by rewrite session_insert_id.
Qed.

(** X15: a create or update whose body lacks one of name, email, age and
    course is rejected with a validation error, answered with status 422,
    whatever the store holds and whether or not the id exists; the store
    is left as it was. *)
Theorem missing_field_is_rejected (key : string) body i db :
  key ∈ ["name"; "email"; "age"; "course"] →
  body !! key = None →
  handle (POST_students body) db = (inl ValidationError, db) ∧
  handle (PUT_student i body) db = (inl ValidationError, db) ∧
  status_code_of (POST_students body) (handle (POST_students body) db).1 = 422 ∧
  status_code_of (PUT_student i body) (handle (PUT_student i body) db).1 = 422.
Proof.
  intros Hkey Hnone.
  assert (Hv : Student_validate body = inl ValidationError).
  { unfold Student_validate.
    repeat (apply elem_of_cons in Hkey as [->|Hkey]);
      [..|by apply elem_of_nil in Hkey];
      rewrite Hnone; simpl; repeat case_match; done. }
  rewrite !handle_run, Hv. done.
Qed.

(** X19: a write shape whose age is not an integer of the engine cannot
    be stored: create fails, and so does update of a stored id, both
    answered with status 500 after the body has validated, and the store
    is left as it was. *)
Theorem out_of_range_age_fails i W db :
  ¬ int64 (age W) →
  create_student_func W db = (inl Unexpected, db) ∧
  (is_Some (db !! i) → update_student_func i W db = (inl Unexpected, db)) ∧
  (∀ body, Student_validate body = inr W →
           handle (POST_students body) db = (inl Unexpected, db) ∧
           status_code_of (POST_students body) (handle (POST_students body) db).1 = 500 ∧
           (is_Some (db !! i) →
            handle (PUT_student i body) db = (inl Unexpected, db) ∧
            status_code_of (PUT_student i body) (handle (PUT_student i body) db).1 = 500)).
Proof.
  intros Ha.
  assert (Hc : create_student_func W db = (inl Unexpected, db)).
  { rewrite create_student_func_run. destruct (new_rowid db) as [k|]; [|done].
    destruct (decide (row_ok k W)) as [[? ?]|]; done. }
  assert (Hu : is_Some (db !! i) → update_student_func i W db = (inl Unexpected, db)).
  { intros [row Hi]. destruct (stored_row_ok _ _ _ Hi) as [Hid _].
    rewrite update_student_func_run, decide_True, Hi by done.
    destruct (decide (row_ok i W)) as [[? ?]|]; done. }
  split; [done|]. split; [done|].
  intros body Hv. rewrite !handle_run, Hv, !fmap_run, Hc. simpl.
  split; [done|]. split; [done|]. intros Hi. by rewrite (Hu Hi).
Qed.

End transport.

(** ** Runs *)

Section persistence.
Context `{LaxInt} `{RandomRowid}.
Implicit Types (db : Session) (i j k : Z) (row W : Student).
Implicit Types (req : request) (reqs : list request).

Lemma handle_keeps req db i row :
  ¬ writes_to i req → db !! i = Some row → (handle req db).2 !! i = Some row.
Proof.
  intros Hw Hi.
  destruct (handle_outcome req db) as
    [req e|l|k row' Hk|body W k db' Hv Hn Hk Hid Ha Hrows
    |k body W old db' Hv Hk Ha Hrows|k row' db' Hk Hrows]; simpl in *; try done.
  - rewrite lookup_rows, Hrows, lookup_insert_ne; [done|]. congruence.
  - by rewrite lookup_rows, Hrows, lookup_insert_ne.
  - by rewrite lookup_rows, Hrows, lookup_delete_ne.
Qed.

(** X17: a stored record stays as it is for as long as no update or
    delete of its own id is served: creates, reads, and updates and
    deletes of other ids, failing or not, leave it in place unchanged. *)
Theorem record_persists reqs db i row :
  db !! i = Some row →
  Forall (λ req, ¬ writes_to i req) reqs →
  (serve reqs db).2 !! i = Some row ∧
  get_student_func i (serve reqs db).2 =
    (inr (mkStudentResponse i (name row) (email row) (age row) (course row)),
     (serve reqs db).2).
Proof.
  intros Hi Hreqs.
  assert (Hs : (serve reqs db).2 !! i = Some row).
  { revert db Hi. induction Hreqs as [|req reqs Hreq _ IH]; intros db Hi; [done|].
    rewrite serve_cons. cbn [snd]. by apply IH, handle_keeps. }
  split; [done|]. destruct (stored_row_ok _ _ _ Hs) as [Hid _].
  by rewrite get_student_func_run, decide_True, Hs.
Qed.

(** X18: a request that fails, and any get or list request, is
    transparent in a run: the requests after it are answered as if it had
    not been sent, and the store at the end is the same. *)
Theorem failures_and_reads_are_transparent req reqs db :
  (∃ e, (handle req db).1 = inl e) ∨ req = GET_students ∨ (∃ i, req = GET_student i) →
  serve (req :: reqs) db = ((handle req db).1 :: (serve reqs db).1, (serve reqs db).2).
Proof.
  intros Hreq. rewrite serve_cons.
  assert (Hdb : (handle req db).2 = db); [|by rewrite Hdb].
  destruct Hreq as [[e He]|[->|[i ->]]].
  - apply (handle_failure req db e). rewrite <- He. apply surjective_pairing.
  - by rewrite handle_run, fmap_run, get_all_students_func_run.
  - by rewrite handle_run, fmap_run, get_student_func_run.
Qed.
End persistence.

(** * Instances on the example records *)

(** The examples are run with the validator and the engine of the
    examples; none of them sends a string or a float as age, and none
    reaches the largest row id. *)
#[local] Existing Instance decimal_lax_int.
#[local] Existing Instance zero_rowid.

Lemma one_student_below_ceiling : below_ceiling one_student.
Proof.
  intros k [row Hk]. rewrite lookup_rows in Hk. simpl in Hk.
  apply lookup_singleton_Some in Hk as [<- _]. done.
Qed.

Lemma create_ann_one_student :
  create_student_func ann one_student =
    (inr (mkStudentResponse 2 "Ann" "a@x.com" 20 "CS"),
     (create_student_func ann one_student).2).
Proof.
  transitivity ((create_student_func ann one_student).1,
                (create_student_func ann one_student).2);
    [apply surjective_pairing|]. f_equal.
Qed.

(** The example of the specification: create Ann, delete 1, get 1. *)
Example serve_ann :
  (serve [POST_students ann_body; DELETE_student 1; GET_student 1] ∅).1 =
    [inr (RStudent (mkStudentResponse 1 "Ann" "a@x.com" 20 "CS"));
     inr (RDeleted (mkDeleted "Student deleted successfully"
                      (mkStudentResponse 1 "Ann" "a@x.com" 20 "CS")));
     inl (HTTPException 404 "Student not found")].
Proof. vm_compute. reflexivity. Qed.



(** C4, as stated, fails: no record has id 2^63, and get of that id does
    not fail with not-found. *)
Lemma get_out_of_range_id : ¬ absent_gives_not_found 9223372036854775808 ∅.
Proof.
  intros Hs.
  assert (Hf : (get_student_func 9223372036854775808 ∅).1 = inl Unexpected)
    by (vm_compute; reflexivity).
  rewrite Hs in Hf; [discriminate|done].
Qed.

(** C7, as stated, fails: a create whose name is the empty string is
    accepted and stored. *)
Lemma empty_name_is_stored :
  ¬ names_nonempty [POST_students anonymous_body].
Proof.
  intros Hn. apply (Hn 1 (mkStudent "" "a@x.com" 20 "CS")).
  - vm_compute. reflexivity.
  - reflexivity.
Qed.




Lemma absent_is_not_found_witness :
  int64 2 ∧
  one_student !! 2 = None ∧
  get_student_func 2 one_student = (inl (HTTPException 404 "Student not found"), one_student) ∧
  update_student_func 2 bob one_student =
    (inl (HTTPException 404 "Student not found"), one_student) ∧
  delete_student_func 2 one_student =
    (inl (HTTPException 404 "Student not found"), one_student) ∧
  status_code_of (GET_student 2) (handle (GET_student 2) one_student).1 = 404 ∧
  status_code_of (DELETE_student 2) (handle (DELETE_student 2) one_student).1 = 404 ∧
  (∀ body, Student_validate body = inr bob →
           handle (PUT_student 2 body) one_student =
             (inl (HTTPException 404 "Student not found"), one_student) ∧
           status_code_of (PUT_student 2 body)
             (handle (PUT_student 2 body) one_student).1 = 404) ∧
  (∀ db0, delete_student_func 2 (delete_student_func 2 db0).2 =
            (inl (HTTPException 404 "Student not found"), (delete_student_func 2 db0).2)).
Proof.
  assert (H1 : int64 2) by (vm_compute; split; discriminate).
  assert (H2 : one_student !! 2 = None) by reflexivity.
  split; [exact H1|]. split; [exact H2|].
  exact (absent_is_not_found 2 bob one_student H1 H2).
Defined.

Lemma delete_returns_last_value_witness :
  one_student !! 1 = Some ann ∧
  ∃ db', delete_student_func 1 one_student =
           (inr {| message := "Student deleted successfully";
                   deleted_student :=
                     {| r_id := 1; r_name := name ann; r_email := email ann;
                        r_age := age ann; r_course := course ann |} |}, db') ∧
    db' !! 1 = None ∧
    (∀ j, j ≠ 1 → db' !! j = one_student !! j) ∧
    get_student_func 1 db' = (inl NotFound, db').
Proof.
  assert (H1 : one_student !! 1 = Some ann) by reflexivity.
  split; [exact H1 | exact (delete_returns_last_value 1 ann one_student H1)].
Defined.

Lemma update_delete_frame_witness :
  2 ≠ 1 ∧
  (update_student_func 1 bob two_students).2 !! 2 = two_students !! 2 ∧
  (delete_student_func 1 two_students).2 !! 2 = two_students !! 2 ∧
  (get_student_func 2 (update_student_func 1 bob two_students).2).1 =
    (get_student_func 2 two_students).1 ∧
  (get_student_func 2 (delete_student_func 1 two_students).2).1 =
    (get_student_func 2 two_students).1.
Proof.
  assert (H1 : 2 ≠ 1) by lia.
  split; [exact H1 | exact (update_delete_frame 1 2 bob two_students H1)].
Defined.

Lemma stored_records_are_populated_witness :
  (serve [POST_students ann_body; PUT_student 1 bob_body] ∅).2 !! 1 = Some bob ∧
  ∃ req body, req ∈ [POST_students ann_body; PUT_student 1 bob_body] ∧
    body_of req = Some body ∧
    Student_validate body = inr bob ∧
    body !! "name" = Some (JStr (name bob)) ∧
    body !! "email" = Some (JStr (email bob)) ∧
    is_Some (body !! "age") ∧
    as_int (body !! "age") = inr (age bob) ∧
    body !! "course" = Some (JStr (course bob)).
Proof.
  assert (H1 : (serve [POST_students ann_body; PUT_student 1 bob_body] ∅).2 !! 1 = Some bob)
    by (vm_compute; reflexivity).
  split; [exact H1 | exact (stored_records_are_populated _ 1 bob H1)].
Defined.

Lemma failure_leaves_store_witness :
  handle (PUT_student 2 no_age_body) one_student = (inl ValidationError, one_student) ∧
  body_of (PUT_student 2 no_age_body) = Some no_age_body ∧
  Student_validate no_age_body = inl ValidationError ∧
  one_student = one_student ∧
  handle (PUT_student 2 no_age_body) one_student = (inl ValidationError, one_student).
Proof.
  assert (H1 : handle (PUT_student 2 no_age_body) one_student = (inl ValidationError, one_student))
    by (vm_compute; reflexivity).
  assert (H2 : body_of (PUT_student 2 no_age_body) = Some no_age_body)
    by reflexivity.
  assert (H3 : Student_validate no_age_body = inl ValidationError)
    by (vm_compute; reflexivity).
  split; [exact H1|]. split; [exact H2|]. split; [exact H3|].
  split.
  - exact (proj1 (failure_leaves_store _ one_student) _ _ H1).
  - exact (proj1 (proj2 (failure_leaves_store _ one_student)) _ _ H2 H3).
Defined.

(** ** Instances of the further properties *)

Lemma two_anns_below_ceiling : below_ceiling (create_student_func ann one_student).2.
Proof.
  intros k [row Hk].
  destruct (create_student_func_ok _ _ _ _ create_ann_one_student) as (_ & _ & _ & _ & Hrows).
  rewrite lookup_rows, Hrows in Hk. simpl in Hk.
  apply lookup_insert_Some in Hk as [[<- _]|[_ Hk]]; [done|].
  apply lookup_singleton_Some in Hk as [<- _]. done.
Qed.

Lemma create_then_delete_restores_witness :
  create_student_func ann one_student =
    (inr (mkStudentResponse 2 "Ann" "a@x.com" 20 "CS"),
     (create_student_func ann one_student).2) ∧
  get_student_func 2 (create_student_func ann one_student).2 =
    (inr (mkStudentResponse 2 "Ann" "a@x.com" 20 "CS"),
     (create_student_func ann one_student).2) ∧
  delete_student_func 2 (create_student_func ann one_student).2 =
    (inr (mkDeleted "Student deleted successfully"
            (mkStudentResponse 2 "Ann" "a@x.com" 20 "CS")), one_student) ∧
  below_ceiling one_student ∧
  (∀ r' db2, create_student_func bob one_student = (inr r', db2) → r_id r' = 2).
Proof.
  split; [exact create_ann_one_student|].
  destruct (create_then_delete_restores ann bob one_student _ _ create_ann_one_student)
    as (Hg & Hd & Hn).
  split; [exact Hg|]. split; [exact Hd|].
  split; [exact one_student_below_ceiling | exact (Hn one_student_below_ceiling)].
Defined.

Lemma create_adds_one_witness :
  create_student_func ann one_student =
    (inr (mkStudentResponse 2 "Ann" "a@x.com" 20 "CS"),
     (create_student_func ann one_student).2) ∧
  (∀ j row, one_student !! j = Some row →
            (create_student_func ann one_student).2 !! j = Some row) ∧
  (2 ∉ dom one_student) ∧
  dom (create_student_func ann one_student).2 = {[2]} ∪ dom one_student ∧
  size (create_student_func ann one_student).2 = S (size one_student).
Proof.
  split; [exact create_ann_one_student|].
  exact (create_adds_one ann one_student _ _ create_ann_one_student).
Defined.

Lemma create_bob_after_ann :
  create_student_func bob (create_student_func ann one_student).2 =
    (inr (mkStudentResponse 3 "Bob" "b@x.com" 31 "Math"),
     (create_student_func bob (create_student_func ann one_student).2).2).
Proof.
  transitivity ((create_student_func bob (create_student_func ann one_student).2).1,
                (create_student_func bob (create_student_func ann one_student).2).2);
    [apply surjective_pairing|]. f_equal.
Qed.

Lemma creates_are_consecutive_witness :
  create_student_func ann one_student =
    (inr (mkStudentResponse 2 "Ann" "a@x.com" 20 "CS"),
     (create_student_func ann one_student).2) ∧
  create_student_func bob (create_student_func ann one_student).2 =
    (inr (mkStudentResponse 3 "Bob" "b@x.com" 31 "Math"),
     (create_student_func bob (create_student_func ann one_student).2).2) ∧
  3 ≠ 2 ∧
  (create_student_func bob (create_student_func ann one_student).2).2 !! 2 = Some ann ∧
  (create_student_func bob (create_student_func ann one_student).2).2 !! 3 = Some bob ∧
  below_ceiling (create_student_func ann one_student).2 ∧
  3 = 2 + 1.
Proof.
  split; [exact create_ann_one_student|]. split; [exact create_bob_after_ann|].
  destruct (creates_are_consecutive ann bob one_student _ _ _ _
              create_ann_one_student create_bob_after_ann) as (Hne & H2 & H3 & Hn).
  split; [exact Hne|]. split; [exact H2|]. split; [exact H3|].
  split; [exact two_anns_below_ceiling | exact (Hn two_anns_below_ceiling)].
Defined.


Lemma update_same_values_witness :
  one_student !! 1 = Some ann ∧
  update_student_func 1 ann one_student =
    (inr (mkStudentResponse 1 (name ann) (email ann) (age ann) (course ann)), one_student).
Proof.
  assert (H1 : one_student !! 1 = Some ann) by reflexivity.
  split; [exact H1 | exact (update_same_values 1 ann one_student H1)].
Defined.

Lemma writes_commute_witness :
  1 ≠ 2 ∧
  (update_student_func 2 ann (update_student_func 1 bob two_students).2).2 =
    (update_student_func 1 bob (update_student_func 2 ann two_students).2).2 ∧
  (delete_student_func 2 (update_student_func 1 bob two_students).2).2 =
    (update_student_func 1 bob (delete_student_func 2 two_students).2).2 ∧
  (delete_student_func 2 (delete_student_func 1 two_students).2).2 =
    (delete_student_func 1 (delete_student_func 2 two_students).2).2 ∧
  (update_student_func 1 bob (update_student_func 2 ann two_students).2).1 =
    (update_student_func 1 bob two_students).1 ∧
  (update_student_func 1 bob (delete_student_func 2 two_students).2).1 =
    (update_student_func 1 bob two_students).1 ∧
  (delete_student_func 1 (update_student_func 2 ann two_students).2).1 =
    (delete_student_func 1 two_students).1 ∧
  (delete_student_func 1 (delete_student_func 2 two_students).2).1 =
    (delete_student_func 1 two_students).1.
Proof.
  assert (H1 : 1 ≠ 2) by lia.
  split; [exact H1 | exact (writes_commute 1 2 bob ann two_students H1)].
Defined.


Lemma ids_between_one_and_created_witness :
  is_Some ((serve [POST_students ann_body; POST_students bob_body] ∅).2 !! 2) ∧
  1 ≤ 2 ≤ Z.of_nat (created [POST_students ann_body; POST_students bob_body]
                      (serve [POST_students ann_body; POST_students bob_body] ∅).1).
Proof.
  assert (H1 : is_Some ((serve [POST_students ann_body; POST_students bob_body] ∅).2 !! 2))
    by (exists bob; vm_compute; reflexivity).
  split; [exact H1 | exact (ids_between_one_and_created _ 2 H1)].
Defined.

Lemma list_all_after_create_witness :
  create_student_func ann one_student =
    (inr (mkStudentResponse 2 "Ann" "a@x.com" 20 "CS"),
     (create_student_func ann one_student).2) ∧
  ∃ l l',
    get_all_students_func one_student = (inr l, one_student) ∧
    get_all_students_func (create_student_func ann one_student).2 =
      (inr l', (create_student_func ann one_student).2) ∧
    l' ≡ₚ mkStudentResponse 2 "Ann" "a@x.com" 20 "CS" :: l.
Proof.
  split; [exact create_ann_one_student|].
  exact (list_all_after_create ann one_student _ _ create_ann_one_student).
Defined.

Lemma list_all_before_delete_witness :
  is_Some (two_students !! 1) ∧
  ∃ d db' l l',
    delete_student_func 1 two_students = (inr d, db') ∧
    get_all_students_func two_students = (inr l, two_students) ∧
    get_all_students_func db' = (inr l', db') ∧
    l ≡ₚ deleted_student d :: l'.
Proof.
  assert (H1 : is_Some (two_students !! 1)) by (exists ann; reflexivity).
  split; [exact H1 | exact (list_all_before_delete 1 two_students H1)].
Defined.

Lemma put_what_get_returned_witness :
  handle (GET_student 1) one_student =
    (inr (RStudent (mkStudentResponse 1 "Ann" "a@x.com" 20 "CS")), one_student) ∧
  handle (PUT_student 1 (response_dump (mkStudentResponse 1 "Ann" "a@x.com" 20 "CS")))
         one_student =
    (inr (RStudent (mkStudentResponse 1 "Ann" "a@x.com" 20 "CS")), one_student).
Proof.
  assert (H1 : handle (GET_student 1) one_student =
                 (inr (RStudent (mkStudentResponse 1 "Ann" "a@x.com" 20 "CS")), one_student))
    by (vm_compute; reflexivity).
  split; [exact H1 | exact (put_what_get_returned 1 _ one_student H1)].
Defined.

Lemma missing_field_is_rejected_witness :
  "age" ∈ ["name"; "email"; "age"; "course"] ∧
  no_age_body !! "age" = None ∧
  handle (POST_students no_age_body) one_student = (inl ValidationError, one_student) ∧
  handle (PUT_student 1 no_age_body) one_student = (inl ValidationError, one_student) ∧
  status_code_of (POST_students no_age_body)
    (handle (POST_students no_age_body) one_student).1 = 422 ∧
  status_code_of (PUT_student 1 no_age_body)
    (handle (PUT_student 1 no_age_body) one_student).1 = 422.
Proof.
  assert (H1 : "age" ∈ ["name"; "email"; "age"; "course"])
    by (do 2 apply list_elem_of_further; apply list_elem_of_here).
  assert (H2 : no_age_body !! "age" = None) by (vm_compute; reflexivity).
  split; [exact H1|]. split; [exact H2|].
  exact (missing_field_is_rejected "age" no_age_body 1 one_student H1 H2).
Defined.

Lemma record_persists_witness :
  one_student !! 1 = Some ann ∧
  Forall (λ req, ¬ writes_to 1 req)
    [POST_students bob_body; PUT_student 2 ann_body; DELETE_student 3; GET_students] ∧
  (serve [POST_students bob_body; PUT_student 2 ann_body; DELETE_student 3; GET_students]
         one_student).2 !! 1 = Some ann ∧
  get_student_func 1
    (serve [POST_students bob_body; PUT_student 2 ann_body; DELETE_student 3; GET_students]
           one_student).2 =
    (inr (mkStudentResponse 1 (name ann) (email ann) (age ann) (course ann)),
     (serve [POST_students bob_body; PUT_student 2 ann_body; DELETE_student 3; GET_students]
            one_student).2).
Proof.
  assert (H1 : one_student !! 1 = Some ann) by reflexivity.
  assert (H2 : Forall (λ req, ¬ writes_to 1 req)
                 [POST_students bob_body; PUT_student 2 ann_body;
                  DELETE_student 3; GET_students])
    by (repeat constructor; simpl; intros ?; (done || lia)).
  split; [exact H1|]. split; [exact H2|].
  exact (record_persists _ one_student 1 ann H1 H2).
Defined.

Lemma failures_and_reads_are_transparent_witness :
  ((∃ e, (handle (DELETE_student 2) one_student).1 = inl e) ∨
   DELETE_student 2 = GET_students ∨ (∃ i, DELETE_student 2 = GET_student i)) ∧
  serve [DELETE_student 2; GET_student 1] one_student =
    ((handle (DELETE_student 2) one_student).1 :: (serve [GET_student 1] one_student).1,
     (serve [GET_student 1] one_student).2).
Proof.
  assert (H1 : (∃ e, (handle (DELETE_student 2) one_student).1 = inl e) ∨
               DELETE_student 2 = GET_students ∨ (∃ i, DELETE_student 2 = GET_student i))
    by (left; exists NotFound; vm_compute; reflexivity).
  split; [exact H1|].
  exact (failures_and_reads_are_transparent (DELETE_student 2) [GET_student 1] one_student H1).
Defined.

Lemma out_of_range_age_fails_witness :
  ¬ int64 (age eve) ∧
  create_student_func eve one_student = (inl Unexpected, one_student) ∧
  (is_Some (one_student !! 1) →
   update_student_func 1 eve one_student = (inl Unexpected, one_student)) ∧
  (∀ body, Student_validate body = inr eve →
           handle (POST_students body) one_student = (inl Unexpected, one_student) ∧
           status_code_of (POST_students body)
             (handle (POST_students body) one_student).1 = 500 ∧
           (is_Some (one_student !! 1) →
            handle (PUT_student 1 body) one_student = (inl Unexpected, one_student) ∧
            status_code_of (PUT_student 1 body)
              (handle (PUT_student 1 body) one_student).1 = 500)).
Proof.
  assert (H1 : ¬ int64 (age eve)) by (intros [_ Hle]; by apply Hle).
  split; [exact H1 | exact (out_of_range_age_fails 1 eve one_student H1)].
Defined.

